(** * Career Counseling Agent: the tool registry, the four prompt
      templates and the chat script of [src/app.py]

    The program is a Streamlit script.  Its own logic is
    - four tool factories, each closing over a model handle and rendering
      one f-string around the caller's text before calling the model,
    - [build_tools], the dictionary lookup that turns the sidebar selection
      into the list of tools handed to the agent,
    - the script body: session initialisation, the clear button, and the
      chat input handler with its [try]/[except] around [agent.run].

    The language model, the agent loop and the conversation buffer are
    imported from libraries; they enter the development as the interfaces
    the script uses.  Python [str] values are modelled as [string]: every
    operation the program applies to text is concatenation, which commutes
    with the UTF-8 encoding of the characters. *)

From stdpp Require Import gmap strings list.

(** ** Python [str] operations used by the statements *)

Module PyStr.

(** The line feed that ends every line of a triple-quoted literal. *)
Definition LF : string := "
".

(** [bool(s)]: a string is truthy exactly when it is not empty. *)
Definition truthy (s : string) : bool :=
  match s with
  | EmptyString => false
  | String _ _ => true
  end.

(** [s.startswith(p)] *)
Fixpoint startswith (s p : string) : bool :=
  match p, s with
  | EmptyString, _ => true
  | String _ _, EmptyString => false
  | String a p', String b s' => Ascii.eqb a b && startswith s' p'
  end.

(** [s.endswith(x)] *)
Fixpoint endswith (s x : string) : bool :=
  String.eqb s x ||
  match s with
  | EmptyString => false
  | String _ s' => endswith s' x
  end.

(** [x in s] *)
Fixpoint contains_b (x s : string) : bool :=
  startswith s x ||
  match s with
  | EmptyString => false
  | String _ s' => contains_b x s'
  end.

(** The relations the three tests decide. *)
Definition is_prefix (p s : string) : Prop := ∃ post, s = p +:+ post.
Definition is_suffix (x s : string) : Prop := ∃ pre, s = pre +:+ x.
Definition contains (x s : string) : Prop := ∃ pre post, s = pre +:+ x +:+ post.

End PyStr.

(** ** f-strings

    An f-string is, in Python's own syntax tree, a [JoinedStr]: a sequence
    of literal pieces and formatted values.  The only replacement field the
    program uses is [{input_text}] (and [{e}] in the script), with no
    conversion and no format specification, so a formatted value evaluates
    to the text of the bound variable itself. *)

Inductive fstring_part : Type :=
  | Constant (s : string)
  | FormattedValue.

Definition JoinedStr : Type := list fstring_part.

Definition eval_part (value : string) (p : fstring_part) : string :=
  match p with
  | Constant s => s
  | FormattedValue => value
  end.

Fixpoint eval_JoinedStr (f : JoinedStr) (value : string) : string :=
  match f with
  | [] => EmptyString
  | p :: f' => eval_part value p +:+ eval_JoinedStr f' value
  end.

(** The four prompts, lines 28-42, 68-84, 110-127 and 154-167. *)

Definition skills_gap_analyzer_head : string := "
You are a senior career coach and technical mentor.

Task: Compare the user's current skills against the target job and identify:
1. Strong matches
2. Partial matches
3. Clear gaps
4. A step-by-step learning path (ordered roadmap) to close the gaps.
5. Recommended resources or practice project ideas.

Be concrete and structured. Use short sections and bullet points.

User & Job Info:
".

Definition skills_gap_analyzer_prompt : JoinedStr :=
  [Constant skills_gap_analyzer_head; FormattedValue; Constant PyStr.LF].

Definition resume_scorer_head : string := "
You are an expert resume reviewer for top tech companies.

Task:
1. Score the resume out of 10 for the specified target role.
2. Briefly explain the score.
3. List concrete, actionable improvements:
   - content (projects, impact, metrics)
   - structure & clarity
   - keywords & ATS-friendliness
4. Provide a revised sample bullet or small section as an example.

Be concise but specific.

Input:
".

Definition resume_scorer_prompt : JoinedStr :=
  [Constant resume_scorer_head; FormattedValue; Constant PyStr.LF].

Definition salary_estimator_head : string := "
You are a career and compensation advisor.

Task:
1. Estimate a realistic **base salary range** for this profile (low, median, high).
2. Specify the assumed currency clearly.
3. Mention factors that affect the range:
   - company size (startup vs big tech),
   - cost of living at the location,
   - skills & specialization,
   - remote vs on-site.
4. Add a short note on how the user can validate/adjust this range using public sources.

Be explicit that this is an approximate estimate, not official or guaranteed.

Profile:
".

Definition salary_estimator_prompt : JoinedStr :=
  [Constant salary_estimator_head; FormattedValue; Constant PyStr.LF].

Definition interview_question_generator_head : string := "
You are an expert interviewer.

Task:
1. Generate interview questions for the given role and level.
2. Include the requested mix of technical and/or behavioral questions.
3. Group questions by category (e.g., Technical - Python, Technical - SQL, Behavioral).
4. For each question, optionally add:
   - a short hint or what the interviewer is looking for,
   - difficulty tag (easy/medium/hard).

Input:
".

Definition interview_question_generator_prompt : JoinedStr :=
  [Constant interview_question_generator_head; FormattedValue; Constant PyStr.LF].

(** The four f-strings of the tools. *)
Definition prompts : list JoinedStr :=
  [ skills_gap_analyzer_prompt; resume_scorer_prompt;
    salary_estimator_prompt; interview_question_generator_prompt ].

(** The sentence of the salary prompt that asks for the disclaimer
    (line 123), and the five numbered items of the skills-gap prompt
    (lines 32-36). *)

Definition salary_disclaimer : string :=
  "Be explicit that this is an approximate estimate, not official or guaranteed.".

Definition skills_gap_instructions : list string :=
  [ "1. Strong matches";
    "2. Partial matches";
    "3. Clear gaps";
    "4. A step-by-step learning path (ordered roadmap) to close the gaps.";
    "5. Recommended resources or practice project ideas." ].

(** The input of end-to-end scenario A. *)
Definition scenario_A_input : string :=
  "Target Role: Backend Engineer
User Skills:
- Python
- SQL
Target Job Description:
Build scalable APIs".

(** ** Exceptions, messages and the conversation buffer *)

(** An instance of Python's [Exception] class, which is what the script's
    handler [except Exception as e] names.  The script observes it only
    through [str(e)], the text its f-string interpolates. *)
Record Exception : Type := mkException { exc_str : string }.

(** [KeyError(key)], raised by a dictionary subscript on a missing key. *)
Inductive KeyError : Type := mkKeyError (key : string).

(** How a call ends, as far as the script can tell: it returns a value or
    raises an [Exception].  What Python keeps outside that class
    ([KeyboardInterrupt], [SystemExit]) stops the interpreter's work on the
    script and is no outcome of a call here. *)
Inductive outcome (A : Type) : Type :=
  | Returned (a : A)
  | Raised (e : Exception).
Arguments Returned {A} a.
Arguments Raised {A} e.

(** langchain's chat messages; [llm.invoke] answers with an [AIMessage]
    and the program reads its [content]. *)
Module BaseMessage.
Inductive t : Type :=
  | HumanMessage (text : string)
  | AIMessage (text : string).

Definition content (m : t) : string :=
  match m with
  | HumanMessage text => text
  | AIMessage text => text
  end.
End BaseMessage.

(** Modelled from the spec: [ConversationBufferMemory] is langchain's class
    and its code is not under src/.  Section 4.4 of the specification gives
    its three operations: [append] adds a turn at the tail with no
    deduplication and no bound, [clear] empties the log, and [asContext]
    exposes the ordered turn sequence.  The two constructor arguments of
    lines 231-234 are kept as fields. *)
Module ConversationBufferMemory.
Record t : Type := mk {
  memory_key : string;
  return_messages : bool;
  chat_memory : list BaseMessage.t
}.

Definition append (turn : BaseMessage.t) (m : t) : t :=
  {| memory_key := memory_key m;
     return_messages := return_messages m;
     chat_memory := chat_memory m ++ [turn] |}.

Definition clear (m : t) : t :=
  {| memory_key := memory_key m;
     return_messages := return_messages m;
     chat_memory := [] |}.

Definition asContext (m : t) : list BaseMessage.t := chat_memory m.
End ConversationBufferMemory.

(** One entry of [st.session_state["messages"]]: the dictionary
    [{"role": ..., "content": ...}]. *)
Record message : Type := mkMessage { role : string; content : string }.

(** [st.session_state]: each of the two keys may still be missing. *)
Record session_state : Type := mkSession {
  messages : option (list message);
  memory : option ConversationBufferMemory.t
}.

(** The first visit: no key has been set. *)
Definition fresh_session : session_state :=
  {| messages := None; memory := None |}.

(** The transcript a session holds (empty before the key exists). *)
Definition transcript (ss : session_state) : list message :=
  default [] (messages ss).

(** The memory context a session holds. *)
Definition memory_context (ss : session_state) : list BaseMessage.t :=
  from_option ConversationBufferMemory.asContext [] (memory ss).

(** [if user_input:] on a value that is [None] or a [str]. *)
Definition submitted (user_input : option string) : option string :=
  match user_input with
  | Some text => if PyStr.truthy text then Some text else None
  | None => None
  end.

(** The reply built by the handler of line 278. *)
Definition oops_prefix : string := "Oops, something went wrong: ".
Definition oops_message : JoinedStr := [Constant oops_prefix; FormattedValue].

(** The labels the sidebar offers, lines 212-217; the dictionary of
    [build_tools] declares its keys in the same order. *)
Definition default_tools : list string :=
  [ "Skills Gap Analyzer";
    "Resume Scorer";
    "Salary Estimator";
    "Interview Question Generator" ].

(** How one run of the script ends: it reaches its last line, it asks
    for a rerun (line 239), or [build_tools] raises outside any handler. *)
Inductive script_end : Type :=
  | Completed
  | RerunRequested
  | Uncaught (e : KeyError).

(** Streamlit's script control.  A rerun or stop request that arrives
    while the script runs is handed to it at its next [st.*] call, which
    then raises instead of returning; the run ends there and what it has
    written to the session state so far stays.  No [st.*] call lies inside
    the [try] block of lines 275-278, so the handler of line 277 never sees
    this.  The calls are grouped by what the script has done to the session
    state when it reaches them:
    - [BeforeSessionState]: the page header and the sidebar, lines 196-224;
    - [InHistory]: the display of an earlier message, lines 243-244, which
      the run reaches only when the transcript is not empty;
    - [AtChatInput]: line 264, after [build_tools] has returned;
    - [BeforeAgentRun]: lines 269-274, after the user turn was appended;
    - [AfterAgentRun]: line 279, after [agent.run] and before line 281. *)
Inductive stop_point : Type :=
  | BeforeSessionState
  | InHistory
  | AtChatInput
  | BeforeAgentRun
  | AfterAgentRun.

(** Whether the request is handed over at the given group of calls. *)
Definition stops_at (stop : option stop_point) (p : stop_point) : bool :=
  match stop, p with
  | Some BeforeSessionState, BeforeSessionState
  | Some InHistory, InHistory
  | Some AtChatInput, AtChatInput
  | Some BeforeAgentRun, BeforeAgentRun
  | Some AfterAgentRun, AfterAgentRun => true
  | _, _ => false
  end.

(** ** The program, over an arbitrary outside world

    [World] is everything the model backend and the agent library may read
    or change between calls (connections, sampling state, the clock);
    [Temperature] is the slider's float. *)

Section Program.
Context {World Temperature : Type}.

(** A call that may change the world and may raise. *)
Definition Eff (A : Type) : Type := World → outcome A * World.

Definition Eff_ret {A : Type} (a : A) : Eff A := λ w, (Returned a, w).

Definition Eff_bind {A B : Type} (m : Eff A) (k : A → Eff B) : Eff B :=
  λ w, match m w with
       | (Returned a, w') => k a w'
       | (Raised e, w') => (Raised e, w')
       end.

Local Notation "'do' x <- m ; k" := (Eff_bind m (λ x, k))
  (at level 10, x name, m at level 100, k at level 200).

(** The model handle: [llm.invoke(prompt)]. *)
Record ChatModel : Type := mkChatModel {
  invoke : string → Eff BaseMessage.t
}.

(** [langchain.tools.Tool] *)
Record Tool : Type := mkTool {
  name : string;
  func : string → Eff string;
  description : string
}.

(** *** Tool factory functions, lines 11-178 *)

Definition _skills_gap_analyzer (llm : ChatModel) (input_text : string)
  : Eff string :=
  let prompt := eval_JoinedStr skills_gap_analyzer_prompt input_text in
  do resp <- invoke llm prompt;
  Eff_ret (BaseMessage.content resp).

Definition make_skills_gap_tool (llm : ChatModel) : Tool :=
  {| name := "skills_gap_analyzer";
     func := _skills_gap_analyzer llm;
     description :=
       "Analyze the gap between a user's current skills and a target job's requirements "
       +:+ "and generate a structured learning path. Use when user asks about skill gaps, "
       +:+ "learning roadmap, or how to reach a specific role." |}.

Definition _resume_scorer (llm : ChatModel) (input_text : string)
  : Eff string :=
  let prompt := eval_JoinedStr resume_scorer_prompt input_text in
  do resp <- invoke llm prompt;
  Eff_ret (BaseMessage.content resp).

Definition make_resume_scorer_tool (llm : ChatModel) : Tool :=
  {| name := "resume_scorer";
     func := _resume_scorer llm;
     description :=
       "Score a resume out of 10 for a target role and provide detailed, actionable feedback. "
       +:+ "Use when user asks to evaluate, review, or improve a resume or CV." |}.

Definition _salary_estimator (llm : ChatModel) (input_text : string)
  : Eff string :=
  let prompt := eval_JoinedStr salary_estimator_prompt input_text in
  do resp <- invoke llm prompt;
  Eff_ret (BaseMessage.content resp).

Definition make_salary_estimator_tool (llm : ChatModel) : Tool :=
  {| name := "salary_estimator";
     func := _salary_estimator llm;
     description :=
       "Estimate a realistic salary range based on job title, location, and years of experience. "
       +:+ "Use when user asks about expected salary, salary range, or compensation." |}.

Definition _interview_question_generator (llm : ChatModel)
    (input_text : string) : Eff string :=
  let prompt := eval_JoinedStr interview_question_generator_prompt input_text in
  do resp <- invoke llm prompt;
  Eff_ret (BaseMessage.content resp).

Definition make_interview_question_tool (llm : ChatModel) : Tool :=
  {| name := "interview_question_generator";
     func := _interview_question_generator llm;
     description :=
       "Generate technical and behavioral interview questions for a given role and difficulty. "
       +:+ "Use when user wants practice questions or mock interview preparation." |}.

(** *** [build_tools], lines 181-189 *)

(** The dictionary literal, as its items in declaration order. *)
Definition all_tools_items (llm : ChatModel) : list (string * Tool) :=
  [ ("Skills Gap Analyzer", make_skills_gap_tool llm);
    ("Resume Scorer", make_resume_scorer_tool llm);
    ("Salary Estimator", make_salary_estimator_tool llm);
    ("Interview Question Generator", make_interview_question_tool llm) ].

Definition all_tools (llm : ChatModel) : gmap string Tool :=
  list_to_map (all_tools_items llm).

(** [[d[name] for name in names]]: the subscripts are evaluated from
    left to right and the first missing key raises. *)
Fixpoint subscript_each (d : gmap string Tool) (names : list string)
  : KeyError + list Tool :=
  match names with
  | [] => inr []
  | name :: names' =>
      match d !! name with
      | None => inl (mkKeyError name)
      | Some tool =>
          match subscript_each d names' with
          | inl e => inl e
          | inr tools => inr (tool :: tools)
          end
      end
  end.

Definition build_tools (llm : ChatModel) (enabled_tool_names : list string)
  : KeyError + list Tool :=
  subscript_each (all_tools llm) enabled_tool_names.

(** The selection as the specification words it (section 4.2): the
    constructed tools whose label is among the given names, in
    declaration order, unknown names ignored. *)
Definition select_as_specified (llm : ChatModel) (names : list string)
  : list Tool :=
  (filter (λ item, item.1 ∈ names) (all_tools_items llm)).*2.

(** *** The script, lines 204-281 *)

(** What the sidebar and the chat box hold in one run of the script. *)
Record widgets : Type := mkWidgets {
  model_name : string;
  temperature : Temperature;
  enabled_tools : list string;
  clear_chat : bool;
  user_input : option string
}.

(** The agent returned by [initialize_agent]: [agent.run(text)] may
    update the memory object it was given, may change the world, and
    returns the final answer or raises. *)
Record AgentExecutor : Type := mkAgent {
  run : string → ConversationBufferMemory.t →
        World → outcome string * ConversationBufferMemory.t * World
}.

(** The two library constructors the script calls on every run. *)
Context (ChatOllama : string → Temperature → ChatModel).
Context (initialize_agent : list Tool → ChatModel → AgentExecutor).

(** Lines 275-278: the answer, or the diagnostic built from [str(e)]. *)
Definition response_of (out : outcome string) : string :=
  match out with
  | Returned response => response
  | Raised e => eval_JoinedStr oops_message (exc_str e)
  end.

(** What the chat input handler leaves behind: the transcript, the
    memory, and the chat messages it rendered. *)
Record handled : Type := mkHandled {
  h_messages : list message;
  h_memory : ConversationBufferMemory.t;
  h_shown : list message
}.

(** Lines 264-281. *)
Definition chat_input_handler (agent : AgentExecutor)
    (user_input : option string) (messages : list message)
    (memory : ConversationBufferMemory.t) (w : World) : handled * World :=
  match submitted user_input with
  | None => ({| h_messages := messages; h_memory := memory; h_shown := [] |}, w)
  | Some text =>
      let user_turn := {| role := "user"; content := text |} in
      let messages1 := messages ++ [user_turn] in
      let '(out, memory', w') := run agent text memory w in
      let response := response_of out in
      let assistant_turn := {| role := "assistant"; content := response |} in
      ({| h_messages := messages1 ++ [assistant_turn];
          h_memory := memory';
          h_shown := [user_turn; assistant_turn] |}, w')
  end.

(** The result of one run of the script. *)
Record run_result : Type := mkRun {
  ended : script_end;
  page : list message;
  session : session_state
}.

(** Lines 231-234. *)
Definition new_memory : ConversationBufferMemory.t :=
  {| ConversationBufferMemory.memory_key := "chat_history";
     ConversationBufferMemory.return_messages := true;
     ConversationBufferMemory.chat_memory := [] |}.

(** One run of the script from top to bottom, lines 226-281. *)
Definition run_script (ui : widgets) (ss : session_state) (w : World)
  : run_result * World :=
  (* session state initialization *)
  let messages0 := default [] (messages ss) in
  let memory0 := default new_memory (memory ss) in
  if clear_chat ui then
    ({| ended := RerunRequested;
        page := [];
        session := {| messages := Some [];
                      memory := Some (ConversationBufferMemory.clear memory0) |} |}, w)
  else
    (* display previous chat history *)
    let history := messages0 in
    let llm := ChatOllama (model_name ui) (temperature ui) in
    match build_tools llm (enabled_tools ui) with
    | inl e =>
        ({| ended := Uncaught e;
            page := history;
            session := {| messages := Some messages0; memory := Some memory0 |} |}, w)
    | inr tools =>
        let agent := initialize_agent tools llm in
        let '(h, w') := chat_input_handler agent (user_input ui) messages0 memory0 w in
        ({| ended := Completed;
            page := history ++ h_shown h;
            session := {| messages := Some (h_messages h);
                          memory := Some (h_memory h) |} |}, w')
    end.

(** The widgets as the rerun of line 239 sees them: the button reads
    [True] only in the run its click started, and nothing was typed. *)
Definition rerun_widgets (ui : widgets) : widgets :=
  {| model_name := model_name ui;
     temperature := temperature ui;
     enabled_tools := enabled_tools ui;
     clear_chat := false;
     user_input := None |}.

(** One interaction: the run it starts and, when that run asks for it,
    the rerun. *)
Definition interaction (ui : widgets) (ss : session_state) (w : World)
  : run_result * World :=
  let '(r, w1) := run_script ui ss w in
  match ended r with
  | RerunRequested => run_script (rerun_widgets ui) (session r) w1
  | _ => (r, w1)
  end.

(** How a run that Streamlit may stop comes out: it ended by itself, with
    the result of a run, or it was stopped at a group of calls and left the
    session state it had written so far. *)
Inductive run_outcome : Type :=
  | RunEnded (r : run_result)
  | RunStopped (at_calls : stop_point) (written : session_state).

Definition session_after (o : run_outcome) : session_state :=
  match o with
  | RunEnded r => session r
  | RunStopped _ written => written
  end.

(** One run of the script, lines 196-281, with the place where a pending
    request is handed over, if the run gets there. *)
Definition run_script_stoppable (stop : option stop_point) (ui : widgets)
    (ss : session_state) (w : World) : run_outcome * World :=
  (* page header and sidebar *)
  if stops_at stop BeforeSessionState then
    (RunStopped BeforeSessionState ss, w)
  else
  (* session state initialization *)
  let messages0 := default [] (messages ss) in
  let memory0 := default new_memory (memory ss) in
  let initialised := {| messages := Some messages0; memory := Some memory0 |} in
  if clear_chat ui then
    (RunEnded
       {| ended := RerunRequested;
          page := [];
          session := {| messages := Some [];
                        memory := Some (ConversationBufferMemory.clear memory0) |} |},
     w)
  else
  (* display previous chat history *)
  if stops_at stop InHistory
     && match messages0 with [] => false | _ :: _ => true end then
    (RunStopped InHistory initialised, w)
  else
  let llm := ChatOllama (model_name ui) (temperature ui) in
  match build_tools llm (enabled_tools ui) with
  | inl e =>
      (RunEnded {| ended := Uncaught e; page := messages0; session := initialised |},
       w)
  | inr tools =>
      let agent := initialize_agent tools llm in
      (* chat input *)
      if stops_at stop AtChatInput then (RunStopped AtChatInput initialised, w)
      else
      match submitted (user_input ui) with
      | None =>
          (RunEnded {| ended := Completed; page := messages0; session := initialised |},
           w)
      | Some text =>
          let user_turn := {| role := "user"; content := text |} in
          let messages1 := messages0 ++ [user_turn] in
          if stops_at stop BeforeAgentRun then
            (RunStopped BeforeAgentRun
               {| messages := Some messages1; memory := Some memory0 |}, w)
          else
          let '(out, memory', w') := run agent text memory0 w in
          let response := response_of out in
          if stops_at stop AfterAgentRun then
            (RunStopped AfterAgentRun
               {| messages := Some messages1; memory := Some memory' |}, w')
          else
          let assistant_turn := {| role := "assistant"; content := response |} in
          (RunEnded
             {| ended := Completed;
                page := messages0 ++ [user_turn; assistant_turn];
                session := {| messages := Some (messages1 ++ [assistant_turn]);
                              memory := Some memory' |} |},
           w')
      end
  end.

(** The sessions a browser session can be in: the fresh one, and any
    session left by a run of the script, whether the run ended by itself
    or was stopped. *)
Inductive reachable : session_state → Prop :=
  | reachable_fresh : reachable fresh_session
  | reachable_run stop ui ss w :
      reachable ss →
      reachable (session_after (run_script_stoppable stop ui ss w).1).

End Program.

Arguments ChatModel : clear implicits.
Arguments Tool : clear implicits.
Arguments AgentExecutor : clear implicits.
Arguments widgets : clear implicits.
Arguments run_result : clear implicits.
Arguments Eff : clear implicits.

(** What every tool does with its rendered prompt (lines 43-44, 85-86,
    128-129 and 168-169): one call of the model, whose answer's content is
    returned unprocessed and whose failure propagates. *)
Definition model_call {World : Type} (llm : ChatModel World) (prompt : string)
  : Eff World string :=
  Eff_bind (invoke llm prompt) (λ resp, Eff_ret (BaseMessage.content resp)).

(** ** Stand-ins for the library collaborators

    Concrete backends and agents over a world that is the log of the
    prompts the backend has received; the general statements below are
    evaluated on them. *)

(** A backend that logs each prompt and answers with the prompt itself. *)
Definition recording_llm : ChatModel (list string) :=
  {| invoke := λ prompt log,
       (Returned (BaseMessage.AIMessage prompt), log ++ [prompt]) |}.

(** A backend whose every call fails, as an unreachable server does. *)
Definition failing_llm : ChatModel (list string) :=
  {| invoke := λ prompt log,
       (Raised (mkException "connection refused"), log ++ [prompt]) |}.

(** Model handles chosen by the model name typed in the sidebar. *)
Definition stub_ChatOllama (model : string) (temperature : nat)
  : ChatModel (list string) :=
  if String.eqb model "offline" then failing_llm else recording_llm.

(** An agent that hands the utterance to its first tool (to the model
    itself when no tool is enabled), saves the exchange in the memory when
    the call returns, and lets a failure of the call propagate. *)
Definition stub_initialize_agent {World : Type} (tools : list (Tool World))
    (llm : ChatModel World) : AgentExecutor World :=
  {| run := λ text memory w,
       let call :=
         match tools with
         | tool :: _ => func tool text
         | [] => model_call llm text
         end in
       match call w with
       | (Returned answer, w') =>
           (Returned answer,
            ConversationBufferMemory.append (BaseMessage.AIMessage answer)
              (ConversationBufferMemory.append (BaseMessage.HumanMessage text) memory),
            w')
       | (Raised e, w') => (Raised e, memory, w')
       end |}.

(** The sidebar as it first appears, with a given button and chat input. *)
Definition stub_widgets (model : string) (enabled : list string)
    (clear : bool) (input : option string) : widgets nat :=
  {| model_name := model;
     temperature := 7;
     enabled_tools := enabled;
     clear_chat := clear;
     user_input := input |}.

(** A session with two earlier turns in the transcript and in the memory. *)
Definition stub_session : session_state :=
  {| messages := Some [ {| role := "user"; content := "hello" |};
                        {| role := "assistant"; content := "hi" |} ];
     memory := Some
       {| ConversationBufferMemory.memory_key := "chat_history";
          ConversationBufferMemory.return_messages := true;
          ConversationBufferMemory.chat_memory :=
            [ BaseMessage.HumanMessage "hello"; BaseMessage.AIMessage "hi" ] |} |}.


(** A label is known when the dictionary of [build_tools] has it. *)
Definition known (label : string) : Prop := label ∈ default_tools.

(** A transcript as the script can leave it: user turns holding an
    utterance that is not empty, each followed by at most one assistant
    turn. *)
Inductive dialogue : list message → Prop :=
  | dialogue_nil : dialogue []
  | dialogue_user text l :
      text ≠ EmptyString →
      dialogue l →
      dialogue ({| role := "user"; content := text |} :: l)
  | dialogue_exchange text reply l :
      text ≠ EmptyString →
      dialogue l →
      dialogue ({| role := "user"; content := text |}
                :: {| role := "assistant"; content := reply |} :: l).

(** A backend with a call counter beside its world: every call of
    [invoke] passes the prompt on and adds one to the counter. *)
Definition counted {World : Type} (llm : ChatModel World)
  : ChatModel (World * nat) :=
  {| invoke := λ prompt wn,
       let '(out, w') := invoke llm prompt wn.1 in (out, (w', S wn.2)) |}.



(** * Properties *)

(** ** The program on concrete inputs *)

(** With all four labels enabled the agent gets the four tools. *)
Example build_tools_default_selection :
  build_tools recording_llm default_tools
  = inr [ make_skills_gap_tool recording_llm;
          make_resume_scorer_tool recording_llm;
          make_salary_estimator_tool recording_llm;
          make_interview_question_tool recording_llm ].
Proof. reflexivity. Qed.

(** With nothing enabled the agent gets no tool. *)
Example build_tools_nothing_enabled : build_tools recording_llm [] = inr [].
Proof. reflexivity. Qed.

(** The resume tool on a one-line input: the prompt reaches the backend
    once, and the backend's answer comes back unprocessed. *)
Example resume_scorer_call :
  func (make_resume_scorer_tool recording_llm) "Resume: none yet" []
  = (Returned (resume_scorer_head +:+ "Resume: none yet" +:+ PyStr.LF),
     [resume_scorer_head +:+ "Resume: none yet" +:+ PyStr.LF]).
Proof. reflexivity. Qed.

(** A first visit followed by one utterance: two turns in the transcript,
    the exchange in the memory, the run completed. *)
Example first_utterance :
  let r := (run_script stub_ChatOllama stub_initialize_agent
              (stub_widgets "llama3.2" [] false (Some "hello"))
              fresh_session []).1 in
  ended r = Completed
  ∧ transcript (session r)
    = [ {| role := "user"; content := "hello" |};
        {| role := "assistant"; content := "hello" |} ]
  ∧ memory_context (session r)
    = [ BaseMessage.HumanMessage "hello"; BaseMessage.AIMessage "hello" ].
Proof. by vm_compute. Qed.

(** A run with an unknown label in the selection stops at [build_tools]
    and records nothing, although an utterance was submitted. *)
Example unknown_label_stops_the_run :
  let r := (run_script stub_ChatOllama stub_initialize_agent
              (stub_widgets "llama3.2" ["Career Astrologer"] false (Some "hello"))
              stub_session []).1 in
  ended r = Uncaught (mkKeyError "Career Astrologer")
  ∧ transcript (session r) = transcript stub_session.
Proof. by vm_compute. Qed.

(** ** Strings *)

Module PyStrFacts.
Import PyStr.

Lemma app_nil_l (a : string) : EmptyString +:+ a = a.
Proof. reflexivity. Qed.

Lemma app_cons (ch : Ascii.ascii) (a b : string) :
  String ch a +:+ b = String ch (a +:+ b).
Proof. reflexivity. Qed.

Lemma app_assoc (a b c : string) : (a +:+ b) +:+ c = a +:+ (b +:+ c).
Proof.
  induction a as [|ch a IH]; [done |].
  rewrite !app_cons. by f_equal.
Qed.

Lemma app_nil_r (a : string) : a +:+ EmptyString = a.
Proof.
  induction a as [|ch a IH]; [done |].
  rewrite app_cons. by f_equal.
Qed.

Lemma startswith_spec (s p : string) :
  startswith s p = true ↔ is_prefix p s.
Proof.
  revert s. induction p as [|a p IH]; intros s.
  - split; [intros _; by exists s | by destruct s].
  - destruct s as [|b s]; simpl.
    + split; [done | by intros [post ?]].
    + rewrite andb_true_iff, Ascii.eqb_eq, IH. split.
      * intros [-> [post ->]]. by exists post.
      * intros [post Hs]. rewrite app_cons in Hs.
        injection Hs as -> ->. split; [done | by exists post].
Qed.

Lemma endswith_app (pre x : string) : endswith (pre +:+ x) x = true.
Proof.
  induction pre as [|a pre IH].
  - rewrite app_nil_l. destruct x; cbn [endswith]; by rewrite String.eqb_refl.
  - rewrite app_cons. cbn [endswith]. rewrite IH. apply orb_true_r.
Qed.

Lemma endswith_spec (s x : string) :
  endswith s x = true ↔ is_suffix x s.
Proof.
  split.
  - induction s as [|a s IH]; cbn [endswith].
    + rewrite orb_false_r, String.eqb_eq. intros <-. by exists EmptyString.
    + rewrite orb_true_iff, String.eqb_eq. intros [<- | H].
      * by exists EmptyString.
      * destruct (IH H) as [pre ->]. by exists (String a pre).
  - intros [pre ->]. apply endswith_app.
Qed.

Lemma contains_b_spec (x s : string) :
  contains_b x s = true ↔ contains x s.
Proof.
  split.
  - induction s as [|a s IH]; cbn [contains_b].
    + rewrite orb_false_r. intros H.
      apply startswith_spec in H as [post ->]. by exists EmptyString, post.
    + rewrite orb_true_iff. intros [H | H].
      * apply (startswith_spec (String a s)) in H as [post ->].
        by exists EmptyString, post.
      * destruct (IH H) as (pre & post & ->). by exists (String a pre), post.
  - intros (pre & post & ->). induction pre as [|a pre IH].
    + rewrite app_nil_l.
      assert (startswith (x +:+ post) x = true) as H
        by (apply startswith_spec; by exists post).
      destruct (x +:+ post); cbn [contains_b]; by rewrite H.
    + rewrite app_cons. cbn [contains_b]. rewrite IH. apply orb_true_r.
Qed.

Lemma contains_app_l (x s t : string) : contains x s → contains x (s +:+ t).
Proof.
  intros (pre & post & ->). exists pre, (post +:+ t).
  by rewrite !app_assoc.
Qed.

Lemma contains_app_r (x s t : string) : contains x t → contains x (s +:+ t).
Proof.
  intros (pre & post & ->). exists (s +:+ pre), post.
  by rewrite !app_assoc.
Qed.

Lemma contains_refl (x : string) : contains x x.
Proof. exists EmptyString, EmptyString. by rewrite app_nil_l, app_nil_r. Qed.

End PyStrFacts.

(** ** The prompts *)

(** Every prompt of the program is its fixed head, the caller's text, and
    the line feed before the closing quotes. *)
Lemma eval_prompt (head input_text : string) :
  eval_JoinedStr [Constant head; FormattedValue; Constant PyStr.LF] input_text
  = head +:+ input_text +:+ PyStr.LF.
Proof. cbn [eval_JoinedStr eval_part]. by rewrite PyStrFacts.app_nil_r. Qed.

(** ** The registry *)

Section Registry.
Context {World : Type}.
Implicit Types (llm : ChatModel World) (d : gmap string (Tool World)).
Implicit Types (names : list string) (tools : list (Tool World)).

(** The keys of the dictionary are the labels the sidebar offers. *)
Lemma all_tools_keys llm : (all_tools_items llm).*1 = default_tools.
Proof. reflexivity. Qed.

Lemma default_tools_NoDup : NoDup default_tools.
Proof. apply (bool_decide_unpack (NoDup default_tools)). by vm_compute. Qed.

Lemma all_tools_lookup llm label tool :
  all_tools llm !! label = Some tool ↔ (label, tool) ∈ all_tools_items llm.
Proof.
  unfold all_tools. rewrite <- elem_of_list_to_map; [done |].
  rewrite all_tools_keys. apply default_tools_NoDup.
Qed.

Lemma all_tools_known llm label :
  known label ↔ is_Some (all_tools llm !! label).
Proof.
  unfold known. rewrite <- (all_tools_keys llm). split.
  - intros ((l & tool) & -> & Hin)%list_elem_of_fmap.
    exists tool. by apply all_tools_lookup.
  - intros [tool Hin%all_tools_lookup].
    apply list_elem_of_fmap. by exists (label, tool).
Qed.

Lemma all_tools_unknown llm label :
  ¬ known label ↔ all_tools llm !! label = None.
Proof. rewrite (all_tools_known llm), eq_None_not_Some. done. Qed.

(** Two labels registered with tools of the same [name] are the same label. *)
Lemma all_tools_name_inj llm label1 label2 tool1 tool2 :
  all_tools llm !! label1 = Some tool1 →
  all_tools llm !! label2 = Some tool2 →
  name tool1 = name tool2 → label1 = label2.
Proof.
  rewrite !all_tools_lookup. unfold all_tools_items.
  rewrite !elem_of_cons, !elem_of_nil.
  intros H1 H2 Hn.
  destruct H1 as [H1|[H1|[H1|[H1|[]]]]]; inversion H1; subst label1 tool1;
  destruct H2 as [H2|[H2|[H2|[H2|[]]]]]; inversion H2; subst label2 tool2;
  first [reflexivity | discriminate Hn].
Qed.

(** The comprehension returns exactly when every subscript finds its key,
    and then position by position. *)
Lemma subscript_each_inr d names tools :
  subscript_each d names = inr tools ↔
  Forall2 (λ label tool, d !! label = Some tool) names tools.
Proof.
  revert tools. induction names as [|label names IH]; intros tools; simpl.
  - split; [intros [= <-]; constructor | by intros ->%Forall2_nil_inv_l].
  - destruct (d !! label) as [tool|] eqn:Hl.
    + destruct (subscript_each d names) as [e|tools'] eqn:Hs.
      * split; [done |]. intros (t & ts & _ & Hts & _)%Forall2_cons_inv_l.
        by apply IH in Hts.
      * split.
        -- intros [= <-]. constructor; [done | by apply IH].
        -- intros (t & ts & Ht & Hts & ->)%Forall2_cons_inv_l.
           apply IH in Hts. congruence.
    + split; [done |]. intros (t & ts & Ht & _)%Forall2_cons_inv_l. congruence.
Qed.

(** It raises exactly at the first name the dictionary lacks. *)
Lemma subscript_each_inl d names missing :
  subscript_each d names = inl (mkKeyError missing) ↔
  ∃ pre post, names = pre ++ missing :: post
              ∧ Forall (λ label, is_Some (d !! label)) pre
              ∧ d !! missing = None.
Proof.
  split.
  - induction names as [|label names IH]; simpl; [done |].
    destruct (d !! label) as [tool|] eqn:Hl.
    + destruct (subscript_each d names) as [e|tools']; [| done].
      intros [= ->]. destruct (IH eq_refl) as (pre & post & -> & Hpre & Hm).
      exists (label :: pre), post. split_and!; [done | | done].
      constructor; [by rewrite Hl | done].
    + intros [= <-]. by exists [], names.
  - intros (pre & post & -> & Hpre & Hm).
    induction Hpre as [|label pre [tool Hl] _ IH]; simpl.
    + by rewrite Hm.
    + by rewrite Hl, IH.
Qed.

(** Either a name is missing somewhere, or every name is found. *)
Lemma Forall_or_first_failure (P : string → Prop) names :
  (∀ label, Decision (P label)) →
  Forall P names ∨
  ∃ pre bad post, names = pre ++ bad :: post ∧ Forall P pre ∧ ¬ P bad.
Proof.
  intros Hdec. induction names as [|label names IH]; [by left |].
  destruct (decide (P label)) as [Hl|Hl].
  - destruct IH as [IH | (pre & bad & post & -> & Hpre & Hbad)].
    + left. by constructor.
    + right. exists (label :: pre), bad, post. split_and!; [done | | done].
      by constructor.
  - right. by exists [], label, names.
Qed.

(** On known names [build_tools] returns, position by position. *)
Lemma build_tools_known llm names :
  Forall known names →
  ∃ tools, build_tools llm names = inr tools
           ∧ Forall2 (λ label tool, all_tools llm !! label = Some tool) names tools.
Proof.
  intros Hk. unfold build_tools.
  induction Hk as [|label names Hl Hk (tools & Hb & Hf)].
  - exists []. split; [done | constructor].
  - apply (all_tools_known llm) in Hl as [tool Ht].
    exists (tool :: tools). simpl. rewrite Ht, Hb. split; [done | by constructor].
Qed.

Lemma build_tools_inr_known llm names tools :
  build_tools llm names = inr tools → Forall known names.
Proof.
  intros H%subscript_each_inr. induction H as [|label tool names tools Hl _ IH].
  - constructor.
  - constructor; [| done]. apply (all_tools_known llm). by rewrite Hl.
Qed.

(** The tool names of two results agree only for the same list of labels. *)
Lemma registered_names_inj llm names1 names2 tools1 tools2 :
  Forall2 (λ label tool, all_tools llm !! label = Some tool) names1 tools1 →
  Forall2 (λ label tool, all_tools llm !! label = Some tool) names2 tools2 →
  name <$> tools1 = name <$> tools2 → names1 = names2.
Proof.
  intros H1. revert names2 tools2.
  induction H1 as [|l1 t1 names1 tools1 Hl1 _ IH]; intros names2 tools2 H2 Hn.
  - destruct H2; [done | discriminate].
  - destruct H2 as [|l2 t2 names2 tools2 Hl2 H2]; [discriminate |].
    injection Hn as Hn Hns. f_equal.
    + by eapply all_tools_name_inj.
    + by eapply IH.
Qed.

(** The labels of a list of registered items are the only names under
    which [build_tools] returns their tools. *)
Lemma registered_labels llm names (items : list (string * Tool World)) :
  (∀ label tool, (label, tool) ∈ items → all_tools llm !! label = Some tool) →
  Forall2 (λ label tool, all_tools llm !! label = Some tool) names items.*2 →
  names = items.*1.
Proof.
  revert names. induction items as [|[l t] items IH]; intros names Hreg Hf.
  - by apply Forall2_nil_inv_r in Hf.
  - csimpl in Hf.
    apply Forall2_cons_inv_r in Hf as (label & names' & Hl & Hf & ->).
    csimpl. f_equal.
    + eapply all_tools_name_inj; [exact Hl | | reflexivity].
      apply Hreg. apply list_elem_of_here.
    + apply IH; [| done]. intros label' tool' Hin.
      apply Hreg. by apply list_elem_of_further.
Qed.

(** A result that is the declaration-order selection comes from names
    listed in declaration order without repetition. *)
Lemma selection_names_sublist llm names :
  Forall2 (λ label tool, all_tools llm !! label = Some tool) names
    (select_as_specified llm names) →
  names `sublist_of` default_tools.
Proof.
  unfold select_as_specified. intros Hf.
  apply registered_labels in Hf.
  - rewrite Hf, <- (all_tools_keys llm).
    apply fmap_sublist, sublist_filter.
  - intros label tool [_ Hin]%list_elem_of_filter. by apply all_tools_lookup.
Qed.

End Registry.

(** C1 (as amended): [build_tools] does not skip names.  For every list of
    enabled names, either every name is a known label and the operation
    returns, position by position, the tool registered under each name, or
    the list has a first name that is not a known label and the operation
    raises [KeyError] for that name, returning no tools at all. *)
Theorem build_tools_returns_or_raises_KeyError {World : Type}
    (llm : ChatModel World) (names : list string) :
  (Forall known names
   ∧ ∃ tools, build_tools llm names = inr tools
              ∧ Forall2 (λ label tool, all_tools llm !! label = Some tool)
                  names tools)
  ∨ (∃ pre unknown post,
       names = pre ++ unknown :: post
       ∧ Forall known pre
       ∧ ¬ known unknown
       ∧ build_tools llm names = inl (mkKeyError unknown)).
Proof.
  destruct (Forall_or_first_failure known names)
    as [Hk | (pre & bad & post & -> & Hpre & Hbad)].
  - intros label. unfold known. apply _.
  - left. split; [done |]. by apply build_tools_known.
  - right. exists pre, bad, post. split_and!; [done .. |].
    apply subscript_each_inl. exists pre, post. split_and!; [done | |].
    + eapply Forall_impl; [exact Hpre |]. intros label. apply all_tools_known.
    + by apply all_tools_unknown.
Qed.

(** C1, the claim as stated, fails: with one known and one unknown name
    the operation returns no subset; it raises [KeyError], although the
    selection as specified would hold the resume scorer. *)
Lemma build_tools_unknown_name_raises :
  (¬ ∃ tools, build_tools recording_llm ["Resume Scorer"; "Career Astrologer"]
              = inr tools)
  ∧ build_tools recording_llm ["Resume Scorer"; "Career Astrologer"]
    = inl (mkKeyError "Career Astrologer")
  ∧ name <$> select_as_specified recording_llm
               ["Resume Scorer"; "Career Astrologer"]
    = ["resume_scorer"].
Proof.
  split_and!; [| reflexivity | reflexivity].
  intros [tools H]. vm_compute in H. discriminate H.
Qed.

(** C2 (as amended): the order of the result is the order of the names.
    When [build_tools] returns, the tool at each position is the one
    registered under the name at that position; the result is determined
    by the list and determines it (two lists yield the same sequence of
    tools exactly when they are the same list, order included); and the
    result is the declaration-order selection of the specification exactly
    when the names are listed in declaration order without repetition. *)
Theorem build_tools_order_is_order_of_names {World : Type}
    (llm : ChatModel World) (names : list string) (tools : list (Tool World)) :
  build_tools llm names = inr tools →
  Forall2 (λ label tool, all_tools llm !! label = Some tool) names tools
  ∧ (∀ names' tools',
       build_tools llm names' = inr tools' →
       (name <$> tools' = name <$> tools ↔ names' = names))
  ∧ (tools = select_as_specified llm names ↔ sublist names default_tools).
Proof.
  intros Hb. assert (Hf := Hb). apply subscript_each_inr in Hf.
  split_and!; [done | |].
  - intros names' tools' Hb'. split.
    + intros Hn. apply subscript_each_inr in Hb'.
      by eapply registered_names_inj.
    + intros ->. congruence.
  - split; [intros ->; by apply (selection_names_sublist llm) |].
    intros Hsub. unfold default_tools in Hsub.
    repeat match goal with
           | H : sublist _ (_ :: _) |- _ => inversion H; clear H; subst
           | H : sublist _ [] |- _ => inversion H; clear H; subst
           end;
    vm_compute in Hb; by injection Hb as <-.
Qed.

Lemma build_tools_order_is_order_of_names_witness :
  build_tools recording_llm ["Resume Scorer"; "Skills Gap Analyzer"]
  = inr [make_resume_scorer_tool recording_llm;
         make_skills_gap_tool recording_llm]
  ∧ Forall2 (λ label tool, all_tools recording_llm !! label = Some tool)
      ["Resume Scorer"; "Skills Gap Analyzer"]
      [make_resume_scorer_tool recording_llm;
       make_skills_gap_tool recording_llm].
Proof.
  split; [reflexivity |].
  apply (build_tools_order_is_order_of_names recording_llm
           ["Resume Scorer"; "Skills Gap Analyzer"]).
  reflexivity.
Defined.

(** C2, the claim as stated, fails: two lists holding the same two known
    names in different orders yield the tools in different orders, and the
    first of them is not in declaration order. *)
Lemma build_tools_order_depends_on_names :
  (∀ label, label ∈ ["Resume Scorer"; "Skills Gap Analyzer"]
            ↔ label ∈ ["Skills Gap Analyzer"; "Resume Scorer"])
  ∧ ∃ tools1 tools2,
      build_tools recording_llm ["Resume Scorer"; "Skills Gap Analyzer"]
      = inr tools1
      ∧ build_tools recording_llm ["Skills Gap Analyzer"; "Resume Scorer"]
        = inr tools2
      ∧ name <$> tools1 = ["resume_scorer"; "skills_gap_analyzer"]
      ∧ name <$> tools2 = ["skills_gap_analyzer"; "resume_scorer"]
      ∧ tools1 ≠ tools2
      ∧ tools1 ≠ select_as_specified recording_llm
                   ["Resume Scorer"; "Skills Gap Analyzer"].
Proof.
  split.
  - intros label. rewrite !elem_of_cons, !elem_of_nil. tauto.
  - exists [make_resume_scorer_tool recording_llm;
            make_skills_gap_tool recording_llm],
           [make_skills_gap_tool recording_llm;
            make_resume_scorer_tool recording_llm].
    split_and!; try reflexivity.
    + intros H. apply (f_equal (fmap name)) in H. discriminate H.
    + intros H. apply (f_equal (fmap name)) in H. vm_compute in H.
      discriminate H.
Qed.

(** C9: on a list of known names [build_tools] returns a list of the
    same length, whose entry at each position is the tool registered under
    the name at that position; so a name that occurs at two positions of
    the input yields the same tool at both positions of the result. *)
Theorem build_tools_keeps_length_and_duplicates {World : Type}
    (llm : ChatModel World) (names : list string) :
  Forall known names →
  ∃ tools,
    build_tools llm names = inr tools
    ∧ length tools = length names
    ∧ (∀ i label, names !! i = Some label →
                  tools !! i = all_tools llm !! label)
    ∧ (∀ i j label, i ≠ j →
                    names !! i = Some label → names !! j = Some label →
                    ∃ tool, tools !! i = Some tool ∧ tools !! j = Some tool).
Proof.
  intros Hk. destruct (build_tools_known llm names Hk) as (tools & Hb & Hf).
  exists tools.
  assert (∀ i label, names !! i = Some label →
                     tools !! i = all_tools llm !! label) as Hpos.
  { intros i label Hi.
    destruct (Forall2_lookup_l _ _ _ _ _ Hf Hi) as (tool & Ht & Hl).
    by rewrite Ht, Hl. }
  split_and!; [done | symmetry; by eapply Forall2_length | done |].
  intros i j label _ Hi Hj.
  destruct (Forall2_lookup_l _ _ _ _ _ Hf Hi) as (tool & Ht & Hl).
  exists tool. split; [done |]. by rewrite (Hpos j label Hj).
Qed.

Lemma build_tools_keeps_length_and_duplicates_witness :
  Forall known ["Salary Estimator"; "Resume Scorer"; "Salary Estimator"]
  ∧ ∃ tools,
      build_tools recording_llm
        ["Salary Estimator"; "Resume Scorer"; "Salary Estimator"] = inr tools
      ∧ length tools = 3.
Proof.
  assert (Forall known ["Salary Estimator"; "Resume Scorer"; "Salary Estimator"])
    as Hk.
  { apply (bool_decide_unpack
             (Forall known ["Salary Estimator"; "Resume Scorer"; "Salary Estimator"])).
    by vm_compute. }
  split; [exact Hk |].
  destruct (build_tools_keeps_length_and_duplicates recording_llm _ Hk)
    as (tools & Hb & Hlen & _).
  by exists tools.
Defined.

(** ** The tools and their prompts *)

Section Tools.
Context {World : Type}.
Implicit Types (llm : ChatModel World) (tool : Tool World).

(** Every registered tool renders one of the four f-strings and makes one
    model call with the result. *)
Lemma registered_tool_calls_model llm label tool :
  all_tools llm !! label = Some tool →
  ∃ head,
    [Constant head; FormattedValue; Constant PyStr.LF] ∈ prompts
    ∧ ∀ input_text,
        func tool input_text
        = model_call llm
            (eval_JoinedStr [Constant head; FormattedValue; Constant PyStr.LF]
               input_text).
Proof.
  rewrite all_tools_lookup. unfold all_tools_items.
  rewrite !elem_of_cons, !elem_of_nil.
  intros [H|[H|[H|[H|[]]]]]; inversion H; subst label tool.
  - exists skills_gap_analyzer_head. split; [| done].
    apply list_elem_of_here.
  - exists resume_scorer_head. split; [| done].
    do 1 apply list_elem_of_further. apply list_elem_of_here.
  - exists salary_estimator_head. split; [| done].
    do 2 apply list_elem_of_further. apply list_elem_of_here.
  - exists interview_question_generator_head. split; [| done].
    do 3 apply list_elem_of_further. apply list_elem_of_here.
Qed.

End Tools.

(** C4: rendering is a total function of the template and the input
    alone.  Every registered tool has one of the four templates such that
    equal inputs render to equal prompts, the rendered prompt is defined
    for every input (the fixed head, the input, a line feed), the tool's
    whole effect in any state of the outside world is the model call on
    that prompt, and two calls in a row with the same input hand the model
    the same prompt both times, whatever the first call did to the world. *)
Theorem prompt_rendering_pure_total {World : Type}
    (llm : ChatModel World) (label : string) (tool : Tool World) :
  all_tools llm !! label = Some tool →
  ∃ template,
    template ∈ prompts
    ∧ (∀ x y, x = y → eval_JoinedStr template x = eval_JoinedStr template y)
    ∧ (∃ head, ∀ x, eval_JoinedStr template x = head +:+ x +:+ PyStr.LF)
    ∧ (∀ x w, func tool x w = model_call llm (eval_JoinedStr template x) w)
    ∧ (∀ x w,
         func tool x (func tool x w).2
         = model_call llm (eval_JoinedStr template x)
             (model_call llm (eval_JoinedStr template x) w).2).
Proof.
  intros (head & Hin & Hf)%registered_tool_calls_model.
  exists [Constant head; FormattedValue; Constant PyStr.LF].
  split_and!; [done | by intros x y -> | | |].
  - exists head. intros x. apply eval_prompt.
  - intros x w. by rewrite Hf.
  - intros x w. by rewrite Hf.
Qed.

Lemma prompt_rendering_pure_total_witness :
  all_tools recording_llm !! "Salary Estimator"
  = Some (make_salary_estimator_tool recording_llm)
  ∧ ∃ template,
      template ∈ prompts
      ∧ ∀ log,
          (func (make_salary_estimator_tool recording_llm) "Job Title: Nurse"
             (func (make_salary_estimator_tool recording_llm)
                "Job Title: Nurse" log).2).2
          = (log ++ [eval_JoinedStr template "Job Title: Nurse"])
            ++ [eval_JoinedStr template "Job Title: Nurse"].
Proof.
  split; [reflexivity |].
  destruct (prompt_rendering_pure_total recording_llm "Salary Estimator"
              (make_salary_estimator_tool recording_llm) eq_refl)
    as (template & Hin & _ & _ & _ & Htwice).
  exists template. split; [exact Hin |].
  intros log. rewrite Htwice. reflexivity.
Defined.

(** C5: every registered tool has a fixed head and a fixed tail, chosen
    before any input is seen, such that for every input string, whatever
    its shape, the prompt is head, input, tail: the input is a contiguous
    part of it, unchanged.  The tool does nothing else with the input: its
    whole behaviour is the model call on that prompt, so it returns
    whenever the model returns and raises only what the model raises. *)
Theorem tools_embed_input_verbatim {World : Type}
    (llm : ChatModel World) (label : string) (tool : Tool World) :
  all_tools llm !! label = Some tool →
  ∃ head tail,
    [Constant head; FormattedValue; Constant tail] ∈ prompts
    ∧ ∀ input_text,
        let prompt := head +:+ input_text +:+ tail in
        eval_JoinedStr [Constant head; FormattedValue; Constant tail] input_text
        = prompt
        ∧ PyStr.contains input_text prompt
        ∧ (∀ w, func tool input_text w = model_call llm prompt w)
        ∧ (∀ w resp w', invoke llm prompt w = (Returned resp, w') →
                        func tool input_text w
                        = (Returned (BaseMessage.content resp), w'))
        ∧ (∀ w e w', func tool input_text w = (Raised e, w') →
                     invoke llm prompt w = (Raised e, w')).
Proof.
  intros (head & Hin & Hf)%registered_tool_calls_model.
  exists head, PyStr.LF. split; [done |]. intros input_text prompt.
  assert (func tool input_text = model_call llm prompt) as Hcall.
  { by rewrite Hf, eval_prompt. }
  split_and!.
  - apply eval_prompt.
  - by exists head, PyStr.LF.
  - intros w. by rewrite Hcall.
  - intros w resp w' Hi. rewrite Hcall. unfold model_call, Eff_bind.
    by rewrite Hi.
  - intros w e w'. rewrite Hcall. unfold model_call, Eff_bind.
    destruct (invoke llm prompt w) as [[resp|e'] w'']; [done |].
    by intros [= -> ->].
Qed.

Lemma tools_embed_input_verbatim_witness :
  all_tools recording_llm !! "Interview Question Generator"
  = Some (make_interview_question_tool recording_llm)
  ∧ ∃ head tail,
      [Constant head; FormattedValue; Constant tail] ∈ prompts
      ∧ func (make_interview_question_tool recording_llm) "Role: ???" []
        = (Returned (head +:+ "Role: ???" +:+ tail),
           [head +:+ "Role: ???" +:+ tail]).
Proof.
  split; [reflexivity |].
  destruct (tools_embed_input_verbatim recording_llm
              "Interview Question Generator"
              (make_interview_question_tool recording_llm) eq_refl)
    as (head & tail & Hin & H).
  exists head, tail. split; [exact Hin |].
  destruct (H "Role: ???") as (_ & _ & Hcall & _).
  rewrite Hcall. reflexivity.
Defined.

(** C6 (as amended): for the input of scenario A the prompt of the
    skills-gap tool contains each of the five numbered instructions and
    contains the input verbatim as its last part, followed only by the one
    line feed that ends the prompt; this prompt is what the tool hands to
    the model. *)
Theorem scenario_A_prompt :
  let prompt := eval_JoinedStr skills_gap_analyzer_prompt scenario_A_input in
  length skills_gap_instructions = 5
  ∧ Forall (λ item, PyStr.contains item prompt) skills_gap_instructions
  ∧ PyStr.contains scenario_A_input prompt
  ∧ PyStr.is_suffix (scenario_A_input +:+ PyStr.LF) prompt
  ∧ prompt = skills_gap_analyzer_head +:+ scenario_A_input +:+ PyStr.LF
  ∧ ∀ (World : Type) (llm : ChatModel World),
      func (make_skills_gap_tool llm) scenario_A_input = model_call llm prompt.
Proof.
  intros prompt. split_and!.
  - reflexivity.
  - unfold skills_gap_instructions.
    repeat (apply Forall_cons; split;
            [apply PyStrFacts.contains_b_spec; by vm_compute |]).
    apply Forall_nil_2.
  - apply PyStrFacts.contains_b_spec. by vm_compute.
  - apply PyStrFacts.endswith_spec. by vm_compute.
  - apply eval_prompt.
  - reflexivity.
Qed.

(** C6, the claim as stated, fails: the prompt does not end with the
    input; its last character is the line feed of the template. *)
Lemma scenario_A_prompt_does_not_end_with_input :
  ¬ PyStr.is_suffix scenario_A_input
      (eval_JoinedStr skills_gap_analyzer_prompt scenario_A_input).
Proof.
  rewrite <- PyStrFacts.endswith_spec. by vm_compute.
Qed.

(** C7: for every input string the prompt of the salary tool contains the
    sentence asking the model to be explicit that the result is an
    approximate estimate, not official or guaranteed, and that prompt is
    what the salary tool hands to the model. *)
Theorem salary_prompt_has_disclaimer (input_text : string) :
  PyStr.contains salary_disclaimer
    (eval_JoinedStr salary_estimator_prompt input_text)
  ∧ ∀ (World : Type) (llm : ChatModel World),
      func (make_salary_estimator_tool llm) input_text
      = model_call llm (eval_JoinedStr salary_estimator_prompt input_text).
Proof.
  split; [| reflexivity].
  unfold salary_estimator_prompt. rewrite eval_prompt.
  apply PyStrFacts.contains_app_l.
  apply PyStrFacts.contains_b_spec. by vm_compute.
Qed.

(** ** The script *)

(** [if user_input:] passes exactly the strings that are not empty. *)
Lemma submitted_Some (user_input : option string) (text : string) :
  submitted user_input = Some text ↔
  user_input = Some text ∧ text ≠ EmptyString.
Proof.
  destruct user_input as [[|a s]|]; simpl; split.
  - done.
  - by intros [[= <-] ?].
  - intros [= <-]. done.
  - by intros [[= <-] _].
  - done.
  - by intros [? _].
Qed.

Lemma submitted_None (user_input : option string) :
  submitted user_input = None ↔
  user_input = None ∨ user_input = Some EmptyString.
Proof.
  destruct user_input as [[|a s]|]; simpl; split; try done.
  - by right.
  - by intros [? | ?].
  - by left.
Qed.


Section Script.
Context {World Temperature : Type}.
Context (ChatOllama : string → Temperature → ChatModel World).
Context (initialize_agent : list (Tool World) → ChatModel World → AgentExecutor World).
Implicit Types (ui : widgets Temperature) (ss : session_state) (w : World).
Implicit Types (agent : AgentExecutor World).

Lemma chat_input_handler_not_submitted agent user_input messages memory w :
  submitted user_input = None →
  chat_input_handler agent user_input messages memory w
  = ({| h_messages := messages; h_memory := memory; h_shown := [] |}, w).
Proof. intros H. unfold chat_input_handler. by rewrite H. Qed.

Lemma chat_input_handler_submitted agent user_input messages memory w text :
  submitted user_input = Some text →
  chat_input_handler agent user_input messages memory w
  = (let user_turn := {| role := "user"; content := text |} in
     let assistant_turn :=
       {| role := "assistant";
          content := response_of (run agent text memory w).1.1 |} in
     {| h_messages := messages ++ [user_turn; assistant_turn];
        h_memory := (run agent text memory w).1.2;
        h_shown := [user_turn; assistant_turn] |},
     (run agent text memory w).2).
Proof.
  intros H. unfold chat_input_handler. rewrite H.
  destruct (run agent text memory w) as [[out memory'] w']. simpl.
  by rewrite <- (assoc_L (++)).
Qed.


(** A run with the clear button pressed. *)
Lemma run_script_clear ui ss w :
  clear_chat ui = true →
  run_script ChatOllama initialize_agent ui ss w
  = ({| ended := RerunRequested;
        page := [];
        session :=
          {| messages := Some [];
             memory := Some (ConversationBufferMemory.clear
                               (default new_memory (memory ss))) |} |}, w).
Proof. intros H. unfold run_script. by rewrite H. Qed.

(** A run that reaches the chat input handler. *)
Lemma run_script_chat ui ss w tools :
  clear_chat ui = false →
  build_tools (ChatOllama (model_name ui) (temperature ui)) (enabled_tools ui)
  = inr tools →
  run_script ChatOllama initialize_agent ui ss w
  = let agent := initialize_agent tools
                   (ChatOllama (model_name ui) (temperature ui)) in
    let h := chat_input_handler agent (user_input ui) (transcript ss)
               (default new_memory (memory ss)) w in
    ({| ended := Completed;
        page := transcript ss ++ h_shown h.1;
        session := {| messages := Some (h_messages h.1);
                      memory := Some (h_memory h.1) |} |},
     h.2).
Proof.
  intros Hc Hb. unfold run_script. rewrite Hc, Hb. unfold transcript.
  by destruct (chat_input_handler _ _ _ _ _).
Qed.

(** A run in which [build_tools] raises leaves the session as it found it. *)
Lemma run_script_KeyError ui ss w e :
  clear_chat ui = false →
  build_tools (ChatOllama (model_name ui) (temperature ui)) (enabled_tools ui)
  = inl e →
  run_script ChatOllama initialize_agent ui ss w
  = ({| ended := Uncaught e;
        page := transcript ss;
        session := {| messages := Some (transcript ss);
                      memory := Some (default new_memory (memory ss)) |} |}, w).
Proof. intros Hc Hb. unfold run_script. by rewrite Hc, Hb. Qed.


(** A run that Streamlit does not stop is a run of the script. *)
Lemma run_script_stoppable_None ui ss w :
  run_script_stoppable ChatOllama initialize_agent None ui ss w
  = (RunEnded (run_script ChatOllama initialize_agent ui ss w).1,
     (run_script ChatOllama initialize_agent ui ss w).2).
Proof.
  unfold run_script_stoppable, run_script, chat_input_handler. cbn [stops_at andb].
  destruct (clear_chat ui); [done |].
  destruct (build_tools _ _) as [e|tools]; [done |].
  destruct (submitted (user_input ui)) as [text|].
  - destruct (run _ text _ w) as [[out memory'] w']. cbn [fst snd].
    by rewrite <- (assoc_L (++)).
  - cbn [fst snd h_messages h_memory h_shown]. by rewrite (right_id_L [] (++)).
Qed.

(** A run that ends by itself ends as the script does, whatever request
    was pending further on. *)
Lemma run_script_stoppable_ended stop ui ss w r :
  (run_script_stoppable ChatOllama initialize_agent stop ui ss w).1 = RunEnded r →
  run_script ChatOllama initialize_agent ui ss w
  = (r, (run_script_stoppable ChatOllama initialize_agent stop ui ss w).2).
Proof.
  unfold run_script_stoppable, run_script, chat_input_handler.
  destruct (stops_at stop BeforeSessionState); [done |].
  destruct (clear_chat ui); [by intros [= <-] |].
  destruct (stops_at stop InHistory && _); [done |].
  destruct (build_tools _ _) as [e|tools]; [by intros [= <-] |].
  destruct (stops_at stop AtChatInput); [done |].
  destruct (submitted (user_input ui)) as [text|].
  - destruct (stops_at stop BeforeAgentRun); [done |].
    destruct (run _ text _ w) as [[out memory'] w'].
    destruct (stops_at stop AfterAgentRun); [done |].
    intros [= <-]. cbn [fst snd h_messages h_memory h_shown].
    by rewrite <- (assoc_L (++)).
  - intros [= <-]. cbn [fst snd h_messages h_memory h_shown].
    by rewrite (right_id_L [] (++)).
Qed.

(** What a stopped run leaves: the transcript it found, with the world
    untouched, or the transcript it found and the user turn of the
    submitted utterance, in a run with the clear button not pressed. *)
Lemma run_script_stoppable_stopped stop ui ss w p written :
  (run_script_stoppable ChatOllama initialize_agent stop ui ss w).1
  = RunStopped p written →
  (transcript written = transcript ss
   ∧ (run_script_stoppable ChatOllama initialize_agent stop ui ss w).2 = w)
  ∨ (clear_chat ui = false
     ∧ (p = BeforeAgentRun ∨ p = AfterAgentRun)
     ∧ ∃ text, submitted (user_input ui) = Some text
               ∧ transcript written
                 = transcript ss ++ [ {| role := "user"; content := text |} ]).
Proof.
  unfold run_script_stoppable.
  destruct (stops_at stop BeforeSessionState); [intros [= <- <-]; by left |].
  destruct (clear_chat ui); [done |].
  destruct (stops_at stop InHistory && _); [intros [= <- <-]; by left |].
  destruct (build_tools _ _) as [e|tools]; [done |].
  destruct (stops_at stop AtChatInput); [intros [= <- <-]; by left |].
  destruct (submitted (user_input ui)) as [text|]; [| done].
  destruct (stops_at stop BeforeAgentRun).
  { intros [= <- <-]. right. split_and!; [done | by left | by exists text]. }
  destruct (run _ text _ w) as [[out memory'] w'].
  destruct (stops_at stop AfterAgentRun); [| done].
  intros [= <- <-]. right. split_and!; [done | by right | by exists text].
Qed.



End Script.



(** C8: a run with the clear button pressed resets both together.  The
    transcript it leaves is the empty list and the context of the memory
    it leaves is the empty sequence, and both are still empty after the
    rerun the clear action asks for, which renders an empty page. *)
Theorem clear_resets_transcript_and_memory {World Temperature : Type}
    (ChatOllama : string → Temperature → ChatModel World)
    (initialize_agent : list (Tool World) → ChatModel World → AgentExecutor World)
    (ui : widgets Temperature) (ss : session_state) (w : World) :
  clear_chat ui = true →
  let r := (run_script ChatOllama initialize_agent ui ss w).1 in
  let r' := (interaction ChatOllama initialize_agent ui ss w).1 in
  ended r = RerunRequested
  ∧ messages (session r) = Some []
  ∧ ConversationBufferMemory.asContext <$> memory (session r) = Some []
  ∧ transcript (session r) = []
  ∧ memory_context (session r) = []
  ∧ transcript (session r') = []
  ∧ memory_context (session r') = []
  ∧ page r' = [].
Proof.
  intros Hc r r'. subst r r'. unfold interaction.
  rewrite (run_script_clear _ _ _ _ _ Hc).
  cbn [fst snd ended session messages memory transcript memory_context
       default from_option fmap option_fmap option_map
       ConversationBufferMemory.asContext ConversationBufferMemory.clear
       ConversationBufferMemory.chat_memory].
  split_and!; try done.
  all: destruct (build_tools
                   (ChatOllama (model_name (rerun_widgets ui))
                      (temperature (rerun_widgets ui)))
                   (enabled_tools (rerun_widgets ui))) as [e|tools] eqn:Hb.
  all: first
    [ by rewrite (run_script_KeyError _ _ (rerun_widgets ui) _ _ e eq_refl Hb)
    | rewrite (run_script_chat _ _ (rerun_widgets ui) _ _ tools eq_refl Hb);
      cbn zeta;
      by rewrite (chat_input_handler_not_submitted _ None _ _ _ eq_refl) ].
Qed.

Lemma clear_resets_transcript_and_memory_witness :
  clear_chat (stub_widgets "llama3.2" default_tools true None) = true
  ∧ transcript stub_session ≠ []
  ∧ memory_context stub_session ≠ []
  ∧ transcript
      (session
         (run_script stub_ChatOllama stub_initialize_agent
            (stub_widgets "llama3.2" default_tools true None)
            stub_session []).1) = []
  ∧ memory_context
      (session
         (run_script stub_ChatOllama stub_initialize_agent
            (stub_widgets "llama3.2" default_tools true None)
            stub_session []).1) = [].
Proof.
  destruct (clear_resets_transcript_and_memory
              stub_ChatOllama stub_initialize_agent
              (stub_widgets "llama3.2" default_tools true None)
              stub_session [] eq_refl)
    as (_ & _ & _ & Htr & Hmem & _).
  split_and!; [reflexivity | discriminate | discriminate | exact Htr | exact Hmem].
Defined.




(** * Further properties of the program *)

(** ** More on [build_tools] *)

Section RegistryMore.
Context {World : Type}.
Implicit Types (llm : ChatModel World) (d : gmap string (Tool World)).
Implicit Types (names : list string) (tools : list (Tool World)).

Lemma subscript_each_app d names1 names2 :
  subscript_each d (names1 ++ names2)
  = match subscript_each d names1 with
    | inl e => inl e
    | inr tools1 =>
        match subscript_each d names2 with
        | inl e => inl e
        | inr tools2 => inr (tools1 ++ tools2)
        end
    end.
Proof.
  induction names1 as [|label names1 IH]; simpl.
  - by destruct (subscript_each d names2).
  - destruct (d !! label) as [tool|]; [| done]. rewrite IH.
    destruct (subscript_each d names1) as [e|tools1]; [done |].
    by destruct (subscript_each d names2).
Qed.

(** The name of the tool a label is registered with, when it is. *)
Lemma registered_names_fmap llm names tools :
  Forall2 (λ label tool, all_tools llm !! label = Some tool) names tools →
  (λ label, name <$> all_tools llm !! label) <$> names
  = Some <$> (name <$> tools).
Proof.
  induction 1 as [|label tool names tools Hl _ IH]; [done |].
  csimpl. by rewrite Hl, IH.
Qed.

Lemma registered_elem_of llm names tools tool :
  Forall2 (λ label tool, all_tools llm !! label = Some tool) names tools →
  tool ∈ tools ↔ ∃ label, label ∈ names ∧ all_tools llm !! label = Some tool.
Proof.
  intros Hf. split.
  - intros [i Hi]%list_elem_of_lookup.
    destruct (Forall2_lookup_r _ _ _ _ _ Hf Hi) as (label & Hl & Hreg).
    exists label. split; [| done]. by eapply list_elem_of_lookup_2.
  - intros (label & [i Hi]%list_elem_of_lookup & Hreg).
    destruct (Forall2_lookup_l _ _ _ _ _ Hf Hi) as (tool' & Ht & Hreg').
    assert (tool' = tool) as -> by congruence.
    by eapply list_elem_of_lookup_2.
Qed.

Lemma registered_NoDup llm names tools :
  Forall2 (λ label tool, all_tools llm !! label = Some tool) names tools →
  NoDup names ↔ NoDup (name <$> tools).
Proof.
  intros Hf. assert (Hn := registered_names_fmap llm names tools Hf). split.
  - intros Hnd. apply (NoDup_fmap Some). rewrite <- Hn.
    apply NoDup_fmap_2_strong; [| done].
    intros l1 l2 [i1 H1]%list_elem_of_lookup [i2 H2]%list_elem_of_lookup Heq.
    destruct (Forall2_lookup_l _ _ _ _ _ Hf H1) as (t1 & _ & Hr1).
    destruct (Forall2_lookup_l _ _ _ _ _ Hf H2) as (t2 & _ & Hr2).
    rewrite Hr1, Hr2 in Heq. injection Heq as Heq.
    by eapply all_tools_name_inj.
  - intros Hnd. apply (NoDup_fmap Some) in Hnd. rewrite <- Hn in Hnd.
    by apply NoDup_fmap_1 in Hnd.
Qed.

Lemma select_as_specified_NoDup llm names :
  NoDup (select_as_specified llm names).
Proof.
  apply (NoDup_fmap_1 name). unfold select_as_specified.
  apply (sublist_NoDup _ (name <$> (all_tools_items llm).*2)).
  - apply (bool_decide_unpack
             (NoDup (name <$> (all_tools_items llm).*2))). by vm_compute.
  - do 2 apply fmap_sublist. apply sublist_filter.
Qed.

Lemma select_as_specified_elem_of llm names tool :
  tool ∈ select_as_specified llm names
  ↔ ∃ label, label ∈ names ∧ all_tools llm !! label = Some tool.
Proof.
  unfold select_as_specified. rewrite list_elem_of_fmap. split.
  - intros ([label tool'] & -> & [Hin Hitem]%list_elem_of_filter).
    exists label. split; [done |]. by apply all_tools_lookup.
  - intros (label & Hin & Hitem%all_tools_lookup).
    exists (label, tool). split; [done |]. by apply list_elem_of_filter.
Qed.

End RegistryMore.

(** X1: the selection of a concatenated list is made of the selections
    of its parts: [build_tools] on [names1 ++ names2] raises what it raises
    on [names1] if it raises there, else what it raises on [names2], and
    otherwise returns the two results one after the other. *)
Theorem build_tools_app {World : Type} (llm : ChatModel World)
    (names1 names2 : list string) :
  build_tools llm (names1 ++ names2)
  = match build_tools llm names1 with
    | inl e => inl e
    | inr tools1 =>
        match build_tools llm names2 with
        | inl e => inl e
        | inr tools2 => inr (tools1 ++ tools2)
        end
    end.
Proof. apply subscript_each_app. Qed.

(** X2: in a result of [build_tools] every tool is one registered under
    a name of the list, and the tools carry pairwise different [name]s
    exactly when no label is listed twice. *)
Theorem build_tools_unique_names {World : Type} (llm : ChatModel World)
    (names : list string) (tools : list (Tool World)) :
  build_tools llm names = inr tools →
  (NoDup names ↔ NoDup (name <$> tools))
  ∧ (∀ tool, tool ∈ tools ↔
             ∃ label, label ∈ names ∧ all_tools llm !! label = Some tool).
Proof.
  intros Hf%subscript_each_inr. split.
  - by apply (registered_NoDup llm).
  - intros tool. by apply (registered_elem_of llm).
Qed.

Lemma build_tools_unique_names_witness :
  build_tools recording_llm ["Salary Estimator"; "Skills Gap Analyzer"]
  = inr [make_salary_estimator_tool recording_llm;
         make_skills_gap_tool recording_llm]
  ∧ NoDup (name <$> [make_salary_estimator_tool recording_llm;
                     make_skills_gap_tool recording_llm]).
Proof.
  split; [reflexivity |].
  apply (build_tools_unique_names recording_llm
           ["Salary Estimator"; "Skills Gap Analyzer"] _ eq_refl).
  apply (bool_decide_unpack
           (NoDup ["Salary Estimator"; "Skills Gap Analyzer"])).
  by vm_compute.
Defined.

(** X3: when no label is listed twice, the result of [build_tools] holds
    the same tools as the selection the specification words (the tools in
    declaration order), up to their order. *)
Theorem build_tools_permutation_of_selection {World : Type}
    (llm : ChatModel World) (names : list string) (tools : list (Tool World)) :
  NoDup names →
  build_tools llm names = inr tools →
  tools ≡ₚ select_as_specified llm names.
Proof.
  intros Hnd Hf%subscript_each_inr. apply NoDup_Permutation.
  - apply (NoDup_fmap_1 name). by apply (registered_NoDup llm names).
  - apply select_as_specified_NoDup.
  - intros tool. rewrite select_as_specified_elem_of.
    by apply (registered_elem_of llm).
Qed.

Lemma build_tools_permutation_of_selection_witness :
  NoDup ["Salary Estimator"; "Skills Gap Analyzer"]
  ∧ [make_salary_estimator_tool recording_llm;
     make_skills_gap_tool recording_llm]
    ≡ₚ select_as_specified recording_llm
         ["Salary Estimator"; "Skills Gap Analyzer"].
Proof.
  assert (NoDup ["Salary Estimator"; "Skills Gap Analyzer"]) as Hnd.
  { apply (bool_decide_unpack
             (NoDup ["Salary Estimator"; "Skills Gap Analyzer"])).
    by vm_compute. }
  split; [exact Hnd |].
  exact (build_tools_permutation_of_selection recording_llm
           ["Salary Estimator"; "Skills Gap Analyzer"] _ Hnd eq_refl).
Defined.

(** ** More on the prompts and the tools *)

Lemma app_char_inj (ch : Ascii.ascii) (a b : string) :
  a +:+ String ch EmptyString = b +:+ String ch EmptyString → a = b.
Proof.
  revert b. induction a as [|c a IH]; intros [|c' b]; try done.
  - rewrite PyStrFacts.app_nil_l, PyStrFacts.app_cons.
    intros [= _ H]. by destruct b.
  - rewrite PyStrFacts.app_nil_l, PyStrFacts.app_cons.
    intros [= _ H]. by destruct a.
  - rewrite !PyStrFacts.app_cons. intros [= -> H]. f_equal. by apply IH.
Qed.

(** Two renderings of one template agree only on the same input. *)
Lemma eval_prompt_inj (head x y : string) :
  eval_JoinedStr [Constant head; FormattedValue; Constant PyStr.LF] x
  = eval_JoinedStr [Constant head; FormattedValue; Constant PyStr.LF] y →
  x = y.
Proof.
  rewrite !eval_prompt. intros H%(inj (String.app head)).
  by apply app_char_inj in H.
Qed.

(** X4: the rendered prompt tells which tool made it and what the input
    was: two of the four templates render to the same prompt only when
    they are the same template applied to the same input. *)
Theorem prompt_identifies_template_and_input (t1 t2 : JoinedStr) (x y : string) :
  t1 ∈ prompts → t2 ∈ prompts →
  eval_JoinedStr t1 x = eval_JoinedStr t2 y →
  t1 = t2 ∧ x = y.
Proof.
  unfold prompts. rewrite !elem_of_cons, !elem_of_nil.
  intros [->|[->|[->|[->|[]]]]] [->|[->|[->|[->|[]]]]] H;
    first [ split; [reflexivity | by apply eval_prompt_inj in H]
          | exfalso; vm_compute in H; discriminate H ].
Qed.

Lemma prompt_identifies_template_and_input_witness :
  eval_JoinedStr resume_scorer_prompt "Resume: none yet"
  = resume_scorer_head +:+ "Resume: none yet" +:+ PyStr.LF
  ∧ resume_scorer_prompt = resume_scorer_prompt
  ∧ "Resume: none yet" = "Resume: none yet".
Proof.
  split; [reflexivity |].
  apply (prompt_identifies_template_and_input
           resume_scorer_prompt resume_scorer_prompt).
  - apply list_elem_of_further, list_elem_of_here.
  - apply list_elem_of_further, list_elem_of_here.
  - reflexivity.
Defined.

(** X5: a tool makes exactly one model call per invocation, whether the
    call returns or raises: there is no retry and no second attempt.  For
    every backend that counts its calls, a call of a registered tool
    moves the counter by one. *)
Theorem tool_calls_model_exactly_once {World : Type}
    (llm : ChatModel (World * nat)) (label : string)
    (tool : Tool (World * nat)) :
  (∀ prompt w n, (invoke llm prompt (w, n)).2.2 = S n) →
  all_tools llm !! label = Some tool →
  ∀ input_text w n, (func tool input_text (w, n)).2.2 = S n.
Proof.
  intros Hcount (head & _ & Hf)%registered_tool_calls_model input_text w n.
  rewrite Hf. unfold model_call, Eff_bind.
  specialize (Hcount (eval_JoinedStr
                        [Constant head; FormattedValue; Constant PyStr.LF]
                        input_text) w n).
  by destruct (invoke llm _ (w, n)) as [[resp|e] w'].
Qed.

Lemma tool_calls_model_exactly_once_witness :
  (func (make_resume_scorer_tool (counted failing_llm))
     "Resume: none yet" ([], 0)).2.2 = 1.
Proof.
  apply (tool_calls_model_exactly_once (counted failing_llm) "Resume Scorer").
  - intros prompt w n. reflexivity.
  - reflexivity.
Defined.

(** ** More on the script *)

Lemma dialogue_app_user (l : list message) (text : string) :
  dialogue l → text ≠ EmptyString →
  dialogue (l ++ [ {| role := "user"; content := text |} ]).
Proof.
  intros Hl Ht. induction Hl as [|text' l Ht' _ IH|text' reply' l Ht' _ IH]; simpl.
  - constructor; [done | constructor].
  - by constructor.
  - by constructor.
Qed.

Lemma dialogue_app_exchange (l : list message) (text reply : string) :
  dialogue l → text ≠ EmptyString →
  dialogue (l ++ [ {| role := "user"; content := text |};
                   {| role := "assistant"; content := reply |} ]).
Proof.
  intros Hl Ht. induction Hl as [|text' l Ht' _ IH|text' reply' l Ht' _ IH]; simpl.
  - apply dialogue_exchange; [done | constructor].
  - by constructor.
  - by constructor.
Qed.

(** In a dialogue the first turn is a user turn, and every assistant turn
    comes directly after a user turn. *)
Lemma dialogue_assistant_follows_user (l : list message) :
  dialogue l →
  (∀ m, l !! 0 = Some m → role m = "user" ∧ content m ≠ EmptyString)
  ∧ (∀ i a, l !! S i = Some a → role a = "assistant" →
            ∃ u, l !! i = Some u ∧ role u = "user" ∧ content u ≠ EmptyString).
Proof.
  induction 1 as [|text l Ht _ [IH0 IH]|text reply l Ht _ [IH0 IH]].
  - split; [by intros m | by intros i a].
  - split; [by intros m [= <-] |].
    intros [|i] a Ha Hr.
    + destruct (IH0 a Ha) as [Hu _]. rewrite Hu in Hr. discriminate Hr.
    + apply (IH i a Ha Hr).
  - split; [by intros m [= <-] |].
    intros [|[|i]] a Ha Hr.
    + by eexists.
    + destruct (IH0 a Ha) as [Hu _]. rewrite Hu in Hr. discriminate Hr.
    + apply (IH i a Ha Hr).
Qed.

Section ScriptMore.
Context {World Temperature : Type}.
Context (ChatOllama : string → Temperature → ChatModel World).
Context (initialize_agent : list (Tool World) → ChatModel World → AgentExecutor World).
Implicit Types (ui : widgets Temperature) (ss : session_state) (w : World).

(** How a run ends is decided by the button and by [build_tools] alone. *)
Lemma run_script_ended ui ss w :
  ended (run_script ChatOllama initialize_agent ui ss w).1
  = if clear_chat ui then RerunRequested
    else match build_tools (ChatOllama (model_name ui) (temperature ui))
                 (enabled_tools ui) with
         | inl e => Uncaught e
         | inr _ => Completed
         end.
Proof.
  destruct (clear_chat ui) eqn:Hc.
  - by rewrite run_script_clear.
  - destruct (build_tools _ _) as [e|tools] eqn:Hb.
    + by rewrite (run_script_KeyError _ _ _ _ _ e).
    + by rewrite (run_script_chat _ _ _ _ _ tools).
Qed.

(** A run that reaches the handler with nothing submitted. *)
Lemma run_script_idle ui ss w tools :
  clear_chat ui = false →
  build_tools (ChatOllama (model_name ui) (temperature ui)) (enabled_tools ui)
  = inr tools →
  submitted (user_input ui) = None →
  run_script ChatOllama initialize_agent ui ss w
  = ({| ended := Completed;
        page := transcript ss;
        session := {| messages := Some (transcript ss);
                      memory := Some (default new_memory (memory ss)) |} |}, w).
Proof.
  intros Hc Hb Hs. rewrite (run_script_chat _ _ _ _ _ tools Hc Hb). cbn zeta.
  rewrite (chat_input_handler_not_submitted _ _ _ _ _ Hs).
  cbn [fst snd h_messages h_memory h_shown]. by rewrite (right_id_L [] (++)).
Qed.

(** A run that reaches the handler with an utterance. *)
Lemma run_script_utterance ui ss w tools text :
  clear_chat ui = false →
  build_tools (ChatOllama (model_name ui) (temperature ui)) (enabled_tools ui)
  = inr tools →
  submitted (user_input ui) = Some text →
  run_script ChatOllama initialize_agent ui ss w
  = let agent := initialize_agent tools
                   (ChatOllama (model_name ui) (temperature ui)) in
    let ran := run agent text (default new_memory (memory ss)) w in
    let turns := [ {| role := "user"; content := text |};
                   {| role := "assistant"; content := response_of ran.1.1 |} ] in
    ({| ended := Completed;
        page := transcript ss ++ turns;
        session := {| messages := Some (transcript ss ++ turns);
                      memory := Some ran.1.2 |} |},
     ran.2).
Proof.
  intros Hc Hb Hs. rewrite (run_script_chat _ _ _ _ _ tools Hc Hb). cbn zeta.
  by rewrite (chat_input_handler_submitted _ _ _ _ _ text Hs).
Qed.

(** The context of the memory a run starts from. *)
Lemma memory_context_default ss :
  ConversationBufferMemory.asContext (default new_memory (memory ss))
  = memory_context ss.
Proof. unfold memory_context. by destruct (memory ss). Qed.

(** Every run, stopped or not, leaves a dialogue when it found one. *)
Lemma run_script_stoppable_dialogue stop ui ss w :
  dialogue (transcript ss) →
  dialogue
    (transcript
       (session_after
          (run_script_stoppable ChatOllama initialize_agent stop ui ss w).1)).
Proof.
  intros Hd.
  destruct (run_script_stoppable ChatOllama initialize_agent stop ui ss w).1
    as [r|p written] eqn:Ho; cbn [session_after].
  - apply run_script_stoppable_ended in Ho.
    destruct (clear_chat ui) eqn:Hc.
    { rewrite run_script_clear in Ho by done. injection Ho as <- _. constructor. }
    destruct (build_tools (ChatOllama (model_name ui) (temperature ui))
                (enabled_tools ui)) as [e|tools] eqn:Hb.
    { rewrite (run_script_KeyError _ _ _ _ _ e Hc Hb) in Ho.
      by injection Ho as <- _. }
    destruct (submitted (user_input ui)) as [text|] eqn:Hs.
    + rewrite (run_script_utterance _ _ _ tools text Hc Hb Hs) in Ho.
      injection Ho as <- _.
      apply dialogue_app_exchange; [done |].
      by apply submitted_Some in Hs as [_ ?].
    + rewrite (run_script_idle _ _ _ tools Hc Hb Hs) in Ho.
      by injection Ho as <- _.
  - apply run_script_stoppable_stopped in Ho
      as [[-> _] | (_ & _ & text & Hs & ->)]; [done |].
    apply dialogue_app_user; [done |].
    by apply submitted_Some in Hs as [_ ?].
Qed.

(** The runs that call no agent leave the outside world as it was. *)
Lemma run_script_world_unchanged ui ss w :
  clear_chat ui = true ∨ submitted (user_input ui) = None →
  (run_script ChatOllama initialize_agent ui ss w).2 = w.
Proof.
  intros Hcase. destruct (clear_chat ui) eqn:Hc.
  - by rewrite run_script_clear.
  - destruct Hcase as [? | Hs]; [done |].
    destruct (build_tools (ChatOllama (model_name ui) (temperature ui))
                (enabled_tools ui)) as [e|tools] eqn:Hb.
    + by rewrite (run_script_KeyError _ _ _ _ _ e).
    + by rewrite (run_script_idle _ _ _ tools).
Qed.


End ScriptMore.

(** X6: how a run of the script ends when it ends by itself.  It asks
    for a rerun exactly when the clear button was pressed; it reaches its
    last line only if the button was not pressed and every enabled name is
    a known label; it stops on an uncaught [KeyError] only for an enabled
    name that is not a known label, so with a selection taken from the
    labels the sidebar offers no run stops on a [KeyError].  A run that
    Streamlit stops part-way ends in none of these ways. *)
Theorem run_script_end {World Temperature : Type}
    (ChatOllama : string → Temperature → ChatModel World)
    (initialize_agent : list (Tool World) → ChatModel World → AgentExecutor World)
    (stop : option stop_point)
    (ui : widgets Temperature) (ss : session_state) (w : World)
    (r : run_result) :
  (run_script_stoppable ChatOllama initialize_agent stop ui ss w).1
  = RunEnded r →
  (ended r = RerunRequested ↔ clear_chat ui = true)
  ∧ (ended r = Completed →
     clear_chat ui = false ∧ Forall known (enabled_tools ui))
  ∧ (∀ key, ended r = Uncaught (mkKeyError key) →
            clear_chat ui = false ∧ key ∈ enabled_tools ui ∧ ¬ known key)
  ∧ (enabled_tools ui ⊆ default_tools → ∀ e, ended r ≠ Uncaught e).
Proof.
  intros Ho%run_script_stoppable_ended.
  assert (ended r = ended (run_script ChatOllama initialize_agent ui ss w).1)
    as -> by by rewrite Ho.
  clear Ho. rewrite run_script_ended.
  destruct (clear_chat ui) eqn:Hc.
  { split_and!; [done | done | done | done]. }
  destruct (build_tools (ChatOllama (model_name ui) (temperature ui))
              (enabled_tools ui)) as [[key]|tools] eqn:Hb.
  - assert (key ∈ enabled_tools ui ∧ ¬ known key) as [Hin Hk].
    { apply subscript_each_inl in Hb as (pre & post & -> & _ & Hm).
      split; [| by apply all_tools_unknown in Hm].
      apply elem_of_app. right. apply list_elem_of_here. }
    split_and!; [done | done | by intros key' [= <-] |].
    intros Hsub e _. apply Hk, Hsub, Hin.
  - apply build_tools_inr_known in Hb. split_and!; done.
Qed.

Lemma run_script_end_witness :
  enabled_tools (stub_widgets "llama3.2" ["Resume Scorer"] false None)
  ⊆ default_tools
  ∧ ∀ e,
      ended (run_script stub_ChatOllama stub_initialize_agent
               (stub_widgets "llama3.2" ["Resume Scorer"] false None)
               stub_session []).1 ≠ Uncaught e.
Proof.
  assert (["Resume Scorer"] ⊆ default_tools) as Hsub.
  { apply (bool_decide_unpack (["Resume Scorer"] ⊆ default_tools)).
    by vm_compute. }
  split; [exact Hsub |].
  apply (run_script_end stub_ChatOllama stub_initialize_agent None
           (stub_widgets "llama3.2" ["Resume Scorer"] false None)
           stub_session [] _ eq_refl).
  exact Hsub.
Defined.

(** X7: a run with the button not pressed and no utterance (none, or an
    empty one) changes nothing: the outside world is as before, so neither
    the agent nor the model was called; the page shows the transcript; the
    transcript, the memory object and its context are the ones the run
    found.  This holds whatever the enabled names are. *)
Theorem run_without_utterance_changes_nothing {World Temperature : Type}
    (ChatOllama : string → Temperature → ChatModel World)
    (initialize_agent : list (Tool World) → ChatModel World → AgentExecutor World)
    (ui : widgets Temperature) (ss : session_state) (w : World) :
  clear_chat ui = false →
  user_input ui = None ∨ user_input ui = Some EmptyString →
  let r := (run_script ChatOllama initialize_agent ui ss w).1 in
  (run_script ChatOllama initialize_agent ui ss w).2 = w
  ∧ page r = transcript ss
  ∧ transcript (session r) = transcript ss
  ∧ memory_context (session r) = memory_context ss
  ∧ (∀ m, memory ss = Some m → memory (session r) = Some m).
Proof.
  intros Hc Hs%submitted_None r. subst r.
  assert (∀ m, memory ss = Some m →
               Some (default new_memory (memory ss)) = Some m) as Hm.
  { by intros m ->. }
  destruct (build_tools (ChatOllama (model_name ui) (temperature ui))
              (enabled_tools ui)) as [e|tools] eqn:Hb.
  - rewrite (run_script_KeyError _ _ _ _ _ e Hc Hb).
    split_and!; try done. apply memory_context_default.
  - rewrite (run_script_idle _ _ _ _ _ tools Hc Hb Hs).
    split_and!; try done. apply memory_context_default.
Qed.

Lemma run_without_utterance_changes_nothing_witness :
  run_script stub_ChatOllama stub_initialize_agent
    (stub_widgets "llama3.2" default_tools false (Some EmptyString))
    stub_session ["earlier prompt"]
  = ({| ended := Completed;
        page := transcript stub_session;
        session := stub_session |}, ["earlier prompt"])
  ∧ (run_script stub_ChatOllama stub_initialize_agent
       (stub_widgets "llama3.2" default_tools false (Some EmptyString))
       stub_session ["earlier prompt"]).2 = ["earlier prompt"].
Proof.
  split; [reflexivity |].
  apply (run_without_utterance_changes_nothing
           stub_ChatOllama stub_initialize_agent
           (stub_widgets "llama3.2" default_tools false (Some EmptyString))
           stub_session ["earlier prompt"]).
  - reflexivity.
  - right. reflexivity.
Defined.



(** X9: the clear action.  An interaction never ends asking for a rerun:
    the rerun started by the clear button does not start another one.
    With the button pressed the whole interaction leaves the outside world
    as it was, so neither the agent nor the model was called, and its
    result does not depend on what the chat box held. *)
Theorem clear_interaction_runs_no_agent {World Temperature : Type}
    (ChatOllama : string → Temperature → ChatModel World)
    (initialize_agent : list (Tool World) → ChatModel World → AgentExecutor World)
    (ui : widgets Temperature) (ss : session_state) (w : World) :
  ended (interaction ChatOllama initialize_agent ui ss w).1 ≠ RerunRequested
  ∧ (clear_chat ui = true →
     (interaction ChatOllama initialize_agent ui ss w).2 = w
     ∧ ∀ typed,
         interaction ChatOllama initialize_agent
           {| model_name := model_name ui;
              temperature := temperature ui;
              enabled_tools := enabled_tools ui;
              clear_chat := true;
              user_input := typed |} ss w
         = interaction ChatOllama initialize_agent ui ss w).
Proof.
  split.
  - unfold interaction.
    destruct (run_script ChatOllama initialize_agent ui ss w) as [r w1] eqn:Hr.
    destruct (ended r) eqn:He;
      [cbn [fst]; by rewrite He | | cbn [fst]; by rewrite He].
    rewrite run_script_ended. cbn [rerun_widgets clear_chat].
    by destruct (build_tools _ _).
  - intros Hc. unfold interaction.
    rewrite (run_script_clear _ _ ui _ _ Hc).
    cbn [ended session]. split.
    + apply run_script_world_unchanged. by right.
    + intros typed. by rewrite run_script_clear.
Qed.

Lemma clear_interaction_runs_no_agent_witness :
  clear_chat (stub_widgets "llama3.2" default_tools true (Some "one more thing"))
  = true
  ∧ (interaction stub_ChatOllama stub_initialize_agent
       (stub_widgets "llama3.2" default_tools true (Some "one more thing"))
       stub_session ["earlier prompt"]).2 = ["earlier prompt"].
Proof.
  split; [reflexivity |].
  apply (clear_interaction_runs_no_agent stub_ChatOllama stub_initialize_agent
           (stub_widgets "llama3.2" default_tools true (Some "one more thing"))
           stub_session ["earlier prompt"]).
  reflexivity.
Defined.


(** X11: apart from the clear action the transcript is append-only,
    also in runs Streamlit stops part-way.  In a run with the button not
    pressed the transcript found is a prefix of the transcript left, and
    the transcript left is the one found, or the one found followed by the
    user turn of the submitted utterance, or the one found followed by
    that user turn and one assistant turn.  A run that ends by itself
    never leaves the user turn alone. *)
Theorem transcript_append_only {World Temperature : Type}
    (ChatOllama : string → Temperature → ChatModel World)
    (initialize_agent : list (Tool World) → ChatModel World → AgentExecutor World)
    (stop : option stop_point)
    (ui : widgets Temperature) (ss : session_state) (w : World) :
  clear_chat ui = false →
  let o := (run_script_stoppable ChatOllama initialize_agent stop ui ss w).1 in
  let after := transcript (session_after o) in
  transcript ss `prefix_of` after
  ∧ (after = transcript ss
     ∨ ∃ text,
         user_input ui = Some text ∧ text ≠ EmptyString
         ∧ (after = transcript ss ++ [ {| role := "user"; content := text |} ]
            ∨ ∃ reply,
                after = transcript ss
                        ++ [ {| role := "user"; content := text |};
                             {| role := "assistant"; content := reply |} ]))
  ∧ (∀ text, after = transcript ss ++ [ {| role := "user"; content := text |} ] →
             ∃ p written, o = RunStopped p written).
Proof.
  intros Hc o after. subst after o.
  destruct (run_script_stoppable ChatOllama initialize_agent stop ui ss w).1
    as [r|p written] eqn:Ho; cbn [session_after].
  - apply run_script_stoppable_ended in Ho.
    destruct (build_tools (ChatOllama (model_name ui) (temperature ui))
                (enabled_tools ui)) as [e|tools] eqn:Hb.
    { rewrite (run_script_KeyError _ _ _ _ _ e Hc Hb) in Ho.
      injection Ho as <- _. cbn [session transcript messages default from_option id].
      split_and!; [done | by left |].
      intros text Heq. apply (f_equal length) in Heq.
      rewrite length_app in Heq. simpl in Heq. lia. }
    destruct (submitted (user_input ui)) as [text|] eqn:Hs.
    + rewrite (run_script_utterance _ _ _ _ _ tools text Hc Hb Hs) in Ho.
      injection Ho as <- _. cbn [session transcript messages default from_option id].
      split_and!.
      * by apply prefix_app_r.
      * right. exists text. apply submitted_Some in Hs as [Hu Ht].
        split_and!; [done | done |]. right. by eexists.
      * intros text' Heq. apply (f_equal length) in Heq.
        rewrite !length_app in Heq. simpl in Heq. lia.
    + rewrite (run_script_idle _ _ _ _ _ tools Hc Hb Hs) in Ho.
      injection Ho as <- _. cbn [session transcript messages default from_option id].
      split_and!; [done | by left |].
      intros text Heq. apply (f_equal length) in Heq.
      rewrite length_app in Heq. simpl in Heq. lia.
  - split_and!; [| | by eexists _, _].
    + apply run_script_stoppable_stopped in Ho
        as [[-> _] | (_ & _ & text & _ & ->)]; [done | by apply prefix_app_r].
    + apply run_script_stoppable_stopped in Ho
        as [[-> _] | (_ & _ & text & Hs & ->)]; [by left |].
      right. exists text. apply submitted_Some in Hs as [Hu Ht].
      split_and!; [done | done | by left].
Qed.

Lemma transcript_append_only_witness :
  transcript stub_session
  `prefix_of`
  transcript
    (session_after
       (run_script_stoppable stub_ChatOllama stub_initialize_agent
          (Some AfterAgentRun)
          (stub_widgets "llama3.2" default_tools false (Some "hello again"))
          stub_session []).1).
Proof.
  apply (transcript_append_only stub_ChatOllama stub_initialize_agent
           (Some AfterAgentRun)
           (stub_widgets "llama3.2" default_tools false (Some "hello again"))
           stub_session []).
  reflexivity.
Defined.

(** X12: in the transcript of every session the script can reach, runs
    that Streamlit stopped part-way included, the turns are user turns
    holding an utterance that is not empty, each followed by at most one
    assistant turn: the first turn is a user turn, and every assistant
    turn comes directly after a user turn. *)
Theorem reachable_transcript_is_dialogue {World Temperature : Type}
    (ChatOllama : string → Temperature → ChatModel World)
    (initialize_agent : list (Tool World) → ChatModel World → AgentExecutor World)
    (ss : session_state) :
  reachable ChatOllama initialize_agent ss →
  dialogue (transcript ss)
  ∧ (∀ m, transcript ss !! 0 = Some m →
          role m = "user" ∧ content m ≠ EmptyString)
  ∧ (∀ i a, transcript ss !! S i = Some a → role a = "assistant" →
            ∃ u, transcript ss !! i = Some u
                 ∧ role u = "user" ∧ content u ≠ EmptyString).
Proof.
  intros Hr. assert (dialogue (transcript ss)) as Hd.
  { induction Hr as [|stop ui ss w _ IH]; [constructor |].
    by apply run_script_stoppable_dialogue. }
  split; [done | by apply dialogue_assistant_follows_user].
Qed.

Lemma reachable_transcript_is_dialogue_witness :
  dialogue
    (transcript
       (session_after
          (run_script_stoppable stub_ChatOllama stub_initialize_agent
             None
             (stub_widgets "llama3.2" default_tools false (Some "and then?"))
             (session_after
                (run_script_stoppable stub_ChatOllama stub_initialize_agent
                   (Some AfterAgentRun)
                   (stub_widgets "offline" default_tools false (Some "hello"))
                   fresh_session []).1)
             []).1)).
Proof.
  apply (reachable_transcript_is_dialogue stub_ChatOllama stub_initialize_agent).
  apply reachable_run. apply reachable_run. apply reachable_fresh.
Defined.








